(** * dbUtilities: the Oracle bulk upload of [utilities/database.py]

    A shallow embedding of [OracleCommand] and of the functions its
    [pandasBulkInsert] method is made of, followed by the properties
    the specification states about them.

    Conventions of the model.
    - A Python [str] is a [string]; characters are single bytes and
      the text is taken to be ASCII.
    - A data frame cell is a [value]; floats are IEEE-754 binary64
      values written as [spec_float], so that NaN and its comparison
      are the real ones.
    - The cx_Oracle driver is outside the program.  It is a
      deterministic environment: a function that, given the calls made
      so far and the next call, either raises or returns.  Every
      method of the class is a computation that threads the object's
      attributes and the log of driver calls, and that either returns
      or raises. *)

From Stdlib Require Import List String Ascii Bool Arith ZArith Lia.
From Stdlib Require Import DecimalString SpecFloat.
Import ListNotations.

Set Implicit Arguments.

Local Open Scope list_scope.
Local Open Scope string_scope.

(** ** Python strings *)

Module PyStr.

(** The double quote character, code 34. *)
Definition dquote : ascii := "034"%char.

(** [c.isspace()] on the ASCII range: TAB, LF, VT, FF, CR, the four
    separators FS GS RS US, and the space. *)
Definition isspace (c : ascii) : bool :=
  let n := nat_of_ascii c in
  ((9 <=? n)%nat && (n <=? 13)%nat) || ((28 <=? n)%nat && (n <=? 31)%nat)
  || (n =? 32)%nat.

(** [s.rstrip()]: [s] without its trailing white space. *)
Fixpoint rstrip (s : string) : string :=
  match s with
  | EmptyString => EmptyString
  | String c r =>
      match rstrip r with
      | EmptyString => if isspace c then EmptyString else String c EmptyString
      | r' => String c r'
      end
  end.

(** One character of [s.upper()]: the letters a-z move to A-Z. *)
Definition upper_char (c : ascii) : ascii :=
  let n := nat_of_ascii c in
  if ((97 <=? n)%nat && (n <=? 122)%nat)%bool then ascii_of_nat (n - 32) else c.

(** [s.upper()]. *)
Fixpoint upper (s : string) : string :=
  match s with
  | EmptyString => EmptyString
  | String c r => String (upper_char c) (upper r)
  end.

(** [str(n)] for a non-negative integer: its decimal digits. *)
Definition str (n : nat) : string :=
  NilEmpty.string_of_uint (Nat.to_uint n).

(** [enumerate(l)], counting from [k]. *)
Definition enumerate_from {A : Type} (k : nat) (l : list A) : list (nat * A) :=
  combine (seq k (List.length l)) l.

Definition enumerate {A : Type} (l : list A) : list (nat * A) :=
  enumerate_from 0 l.

End PyStr.

Import PyStr.

(** ** The static helpers of [OracleCommand] *)

(** The format applied to [c] in the loop of [__buildInsertStrObj__]:
    a triple-quoted literal whose content is a double quote, the
    conversion %s, a double quote and one space. *)
Definition fmt_quoted (c : string) : string :=
  String dquote (c ++ String dquote " ").

(** One iteration of the [for i, c in enumerate(colNames)] loop of
    [__buildInsertStrObj__], on the pair [(_colNameStr, _colNumstr)]. *)
Definition insertStr_step (st : string * string) (ic : nat * string)
  : string * string :=
  let '(_colNameStr, _colNumstr) := st in
  let '(i, c) := ic in
  if (i =? 0)%nat then
    let _colNameStr := _colNameStr ++ "(" in
    let _colNameStr := _colNameStr ++ fmt_quoted c in
    let _colNameStr := rstrip _colNameStr in
    let _colNumstr := _colNumstr ++ "(" in
    let _colNumstr := _colNumstr ++ (":" ++ str (i + 1)) in
    (_colNameStr, _colNumstr)
  else
    let _colNameStr := _colNameStr ++ "," in
    let _colNameStr := _colNameStr ++ fmt_quoted c in
    let _colNameStr := rstrip _colNameStr in
    let _colNumstr := _colNumstr ++ "," in
    let _colNumstr := _colNumstr ++ (":" ++ str (i + 1)) in
    (_colNameStr, _colNumstr).

(** [__buildInsertStrObj__(colNames, ToUpper)]: the pair
    [(_colNameStr, _colNumstr)]. *)
Definition __buildInsertStrObj__ (colNames : list string) (ToUpper : bool)
  : string * string :=
  let colNames := if ToUpper then map upper colNames else colNames in
  let '(_colNameStr, _colNumstr) :=
    fold_left insertStr_step (enumerate colNames) ("", "") in
  (_colNameStr ++ ")", _colNumstr ++ ")").

(** [__buildInsCursorString__(tableName, colNumStr, colNameStr)]: the
    format INSERT INTO %s %s VALUES %s applied to
    [(tableName, colNameStr, colNumStr)]. *)
Definition __buildInsCursorString__ (tableName colNumStr colNameStr : string)
  : string :=
  "INSERT INTO " ++ tableName ++ " " ++ colNameStr ++ " VALUES " ++ colNumStr.

(** The fragments as the specification words them. *)

(** A name between double quotes. *)
Definition quoted (c : string) : string :=
  String dquote (c ++ String dquote "").

(** The items separated by commas, between parentheses. *)
Definition parenthesized (items : list string) : string :=
  "(" ++ String.concat "," items ++ ")".

(** [("c1","c2",...)]. *)
Definition quoted_list (names : list string) : string :=
  parenthesized (map quoted names).

(** [(:1,:2,...,:n)]. *)
Definition placeholder_list (n : nat) : string :=
  parenthesized (map (fun i => ":" ++ str i) (seq 1 n)).

(** ** Data frame cells *)

(** A scalar of a data frame row, as [r.values.tolist()] hands it over:
    [None], a [bool], an [int], a [float] or a [str]. *)
Inductive value : Type :=
| VNone
| VBool (b : bool)
| VInt (z : Z)
| VFloat (f : spec_float)
| VStr (s : string).

(** [int(b)]: [bool] is a subclass of [int]. *)
Definition Z_of_bool (b : bool) : Z := if b then 1%Z else 0%Z.

(** [z == f] for an integer and a float: Python compares the exact
    values, finite [f] being [(+/-) m * 2^e]. *)
Definition int_eq_float (z : Z) (f : spec_float) : bool :=
  match f with
  | S754_zero _ => (z =? 0)%Z
  | S754_infinity _ => false
  | S754_nan => false
  | S754_finite sg m e =>
      let v := if sg then Z.neg m else Z.pos m in
      if (0 <=? e)%Z then (z =? v * 2 ^ e)%Z else (z * 2 ^ (- e) =? v)%Z
  end.

(** [a == b] on scalars. *)
Definition py_eq (a b : value) : bool :=
  match a, b with
  | VNone, VNone => true
  | VStr s, VStr t => String.eqb s t
  | VBool x, VBool y => Bool.eqb x y
  | VBool x, VInt y => (Z_of_bool x =? y)%Z
  | VInt x, VBool y => (x =? Z_of_bool y)%Z
  | VInt x, VInt y => (x =? y)%Z
  | VFloat x, VFloat y => SFeqb x y
  | VBool x, VFloat y => int_eq_float (Z_of_bool x) y
  | VInt x, VFloat y => int_eq_float x y
  | VFloat x, VBool y => int_eq_float (Z_of_bool y) x
  | VFloat x, VInt y => int_eq_float y x
  | _, _ => false
  end.

(** [a != b] on scalars. *)
Definition py_ne (a b : value) : bool := negb (py_eq a b).

(** [__castToNone__(value)]. *)
Definition __castToNone__ (v : value) : value :=
  if py_ne v v then VNone else v.

(** The float NaN, as a cell. *)
Definition NaN : value := VFloat S754_nan.

(** [v] is a float NaN. *)
Definition is_nan (v : value) : bool :=
  match v with
  | VFloat S754_nan => true
  | _ => false
  end.

(** ** Data frames *)

(** A pandas data frame, as far as the upload reads it: the column
    labels ([dataFrame.columns.values]) and the rows, each one the list
    [r.values.tolist()] of the row [r] that [iterrows()] yields. *)
Record DataFrame : Type := mkDataFrame {
  columns : list string;
  rows : list (list value)
}.

(** [dataFrame.shape[1]]: the number of columns. *)
Definition shape1 (dataFrame : DataFrame) : nat :=
  List.length (columns dataFrame).

(** [dataFrame.iterrows()]: the pairs of an index label and a row; the
    labels of the default index are the positions. *)
Definition iterrows (dataFrame : DataFrame) : list (nat * list value) :=
  enumerate (rows dataFrame).

(** [__pandasToList__(dataFrame)]. *)
Definition __pandasToList__ (dataFrame : DataFrame) : list (list value) :=
  fold_left (fun content ir => let row := snd ir in (content ++ [row])%list)
            (iterrows dataFrame) [].

(** ** The normalising loop of [pandasBulkInsert] *)

(** [l[i] = x] for an index in range. *)
Fixpoint list_set {A : Type} (i : nat) (x : A) (l : list A) : list A :=
  match l, i with
  | [], _ => []
  | _ :: t, O => x :: t
  | h :: t, S i' => h :: list_set i' x t
  end.

(** [_dtList[i][j] = v]. *)
Definition set_cell (i j : nat) (v : value) (_dtList : list (list value))
  : list (list value) :=
  match nth_error _dtList i with
  | Some r => list_set i (list_set j v r) _dtList
  | None => _dtList
  end.

(** The inner loop [for j, c in enumerate(r)] with [r] the row
    [_dtList[i]], from position [j] on.  The list iterator reads the
    cell at [j] when it gets there and stops past the end of the row;
    [fuel] bounds the number of iterations. *)
Fixpoint cast_row_loop (fuel j i : nat) (_dtList : list (list value))
  : list (list value) :=
  match fuel with
  | O => _dtList
  | S fuel' =>
      match nth_error _dtList i with
      | None => _dtList
      | Some r =>
          match nth_error r j with
          | None => _dtList
          | Some c =>
              cast_row_loop fuel' (S j) i (set_cell i j (__castToNone__ c) _dtList)
          end
      end
  end.

(** The outer loop [for i, r in enumerate(_dtList)], from row [i] on. *)
Fixpoint cast_rows_loop (fuel i : nat) (_dtList : list (list value))
  : list (list value) :=
  match fuel with
  | O => _dtList
  | S fuel' =>
      match nth_error _dtList i with
      | None => _dtList
      | Some r =>
          cast_rows_loop fuel' (S i) (cast_row_loop (List.length r) 0 i _dtList)
      end
  end.

(** Both loops, run on the whole list: no assignment changes a length,
    so the lengths bound the iterations. *)
Definition cast_all (_dtList : list (list value)) : list (list value) :=
  cast_rows_loop (List.length _dtList) 0 _dtList.

(** ** The driver and the effects of a method *)

(** A connection or a cursor handed out by the driver. *)
Definition handle : Type := nat.

(** A call into cx_Oracle. *)
Inductive call : Type :=
| Connect (connectionString : string)      (* cx_Oracle.connect(cStr) *)
| Cursor (db : handle)                     (* db.cursor() *)
| Prepare (cur : handle) (statement : string)
| ExecuteMany (cur : handle) (statement : option string)
              (batch : list (list value))
| Commit (db : handle)
| CursorClose (cur : handle)
| DbClose (db : handle).

(** What the driver answers: it raises, or it returns.  [Connect] and
    [Cursor] return a handle, the other calls nothing of interest. *)
Inductive reply : Type :=
| Raises (msg : string)
| Returns (h : handle).

(** The driver: its answer to a call, given the calls made before. *)
Definition driver : Type := list call -> call -> reply.

(** A Python exception reaching the caller. *)
Inductive exn : Type :=
| AssertionError
| AttributeError
| DriverError (msg : string).

Inductive result (A : Type) : Type :=
| Ok (a : A)
| Raise (e : exn).

Arguments Ok {A} a.
Arguments Raise {A} e.

(** The attributes of an [OracleCommand] instance; [__db] and
    [__cursor] exist once [__connect__] has set them. *)
Record OracleCommand : Type := mkOracleCommand {
  __cStr : string;
  __command : option string;
  __db : option handle;
  __cursor : option handle
}.

(** [OracleCommand(connectionString, command)]. *)
Definition __init__ (connectionString : string) (command : option string)
  : OracleCommand :=
  mkOracleCommand connectionString command None None.

(** What a method works on: the instance and the log of driver calls,
    oldest first. *)
Record world : Type := mkWorld {
  self : OracleCommand;
  log : list call
}.

(** A method body: it reads the driver, changes the world and returns
    or raises. *)
Definition M (A : Type) : Type := driver -> world -> world * result A.

Definition ret {A : Type} (a : A) : M A := fun _ w => (w, Ok a).

Definition raise {A : Type} (e : exn) : M A := fun _ w => (w, Raise e).

Definition bind {A B : Type} (m : M A) (k : A -> M B) : M B :=
  fun d w =>
    match m d w with
    | (w', Ok a) => k a d w'
    | (w', Raise e) => (w', Raise e)
    end.

Notation "x <- m ;; k" := (bind m (fun x => k))
  (at level 61, m at next level, right associativity).
Notation "m ;; k" := (bind m (fun _ => k))
  (at level 61, right associativity).

(** A driver call: it is logged, then the driver answers. *)
Definition invoke (c : call) : M handle :=
  fun d w =>
    let w' := mkWorld (self w) (log w ++ [c])%list in
    match d (log w) c with
    | Raises msg => (w', Raise (DriverError msg))
    | Returns h => (w', Ok h)
    end.

(** Reading an attribute that [__connect__] sets. *)
Definition get_attr (f : OracleCommand -> option handle) : M handle :=
  fun _ w =>
    match f (self w) with
    | Some h => (w, Ok h)
    | None => (w, Raise AttributeError)
    end.

Definition get_cStr : M string := fun _ w => (w, Ok (__cStr (self w))).

Definition set_db (h : handle) : M unit :=
  fun _ w =>
    let o := self w in
    (mkWorld (mkOracleCommand (__cStr o) (__command o) (Some h) (__cursor o)) (log w),
     Ok tt).

Definition set_cursor (h : handle) : M unit :=
  fun _ w =>
    let o := self w in
    (mkWorld (mkOracleCommand (__cStr o) (__command o) (__db o) (Some h)) (log w),
     Ok tt).

(** [assert cond]. *)
Definition assert (cond : bool) : M unit :=
  if cond then ret tt else raise AssertionError.

(** ** The methods *)

(** [__connect__(self)]. *)
Definition __connect__ : M unit :=
  cs <- get_cStr ;;
  db <- invoke (Connect cs) ;;
  set_db db ;;
  db <- get_attr __db ;;
  cur <- invoke (Cursor db) ;;
  set_cursor cur.

(** [__disconnect__(self)]. *)
Definition __disconnect__ : M unit :=
  cur <- get_attr __cursor ;;
  invoke (CursorClose cur) ;;
  db <- get_attr __db ;;
  invoke (DbClose db) ;;
  ret tt.

(** [pandasBulkInsert(self, dataFrame, tableName, columnNames, colNamesUpper)]. *)
Definition pandasBulkInsert (dataFrame : DataFrame) (tableName : string)
    (columnNames : option (list string)) (colNamesUpper : bool) : M unit :=
  columnNames <-
    match columnNames with
    | None => ret (columns dataFrame)
    | Some columnNames =>
        assert (List.length columnNames =? shape1 dataFrame)%nat ;;
        ret columnNames
    end ;;
  let _dtList := __pandasToList__ dataFrame in
  let _dtList := cast_all _dtList in
  let '(_colNameStr, _colNumStr) := __buildInsertStrObj__ columnNames colNamesUpper in
  let _curString := __buildInsCursorString__ tableName _colNumStr _colNameStr in
  __connect__ ;;
  cur <- get_attr __cursor ;;
  invoke (Prepare cur _curString) ;;
  cur <- get_attr __cursor ;;
  invoke (ExecuteMany cur None _dtList) ;;
  db <- get_attr __db ;;
  invoke (Commit db) ;;
  __disconnect__.

(** A call of a method on a fresh instance, with an empty log. *)
Definition run {A : Type} (m : M A) (d : driver) (connectionString : string)
  : world * result A :=
  m d (mkWorld (__init__ connectionString None) []).

(** The calls a run made. *)
Definition calls_of {A : Type} (r : world * result A) : list call := log (fst r).

(** How a run ended. *)
Definition outcome {A : Type} (r : world * result A) : result A := snd r.

(** A driver that accepts every call; connections get handle 1 and
    cursors handle 2. *)
Definition accepting : driver :=
  fun _ c =>
    match c with
    | Connect _ => Returns 1
    | Cursor _ => Returns 2
    | _ => Returns 0
    end.


(** The number of calls of a log that satisfy [p]. *)
Definition count_calls (p : call -> bool) (l : list call) : nat :=
  List.length (filter p l).

Definition is_connect (c : call) : bool :=
  match c with Connect _ => true | _ => false end.
Definition is_prepare (c : call) : bool :=
  match c with Prepare _ _ => true | _ => false end.
Definition is_executemany (c : call) : bool :=
  match c with ExecuteMany _ _ _ => true | _ => false end.
Definition is_commit (c : call) : bool :=
  match c with Commit _ => true | _ => false end.
Definition is_cursor_close (c : call) : bool :=
  match c with CursorClose _ => true | _ => false end.
Definition is_db_close (c : call) : bool :=
  match c with DbClose _ => true | _ => false end.

(** The data frame of the specification's example. *)
Definition example_frame : DataFrame :=
  mkDataFrame ["id"; "name"] [[VInt 1; VStr "x"]; [VInt 2; NaN]].

(** ** Derived notions used by the properties *)

(** The items of a list, each one after a comma. *)
Fixpoint sep_tail (items : list string) : string :=
  match items with
  | [] => ""
  | y :: ys => "," ++ y ++ sep_tail ys
  end.

(** The normalizer as the specification words it. *)
Definition normalized (v : value) : value :=
  if is_nan v then VNone else v.

(** The names the upload formats: those supplied, or the labels of the
    data frame. *)
Definition effective_names (dataFrame : DataFrame)
    (columnNames : option (list string)) : list string :=
  match columnNames with
  | Some l => l
  | None => columns dataFrame
  end.

(** The check on the supplied names. *)
Definition names_accepted (dataFrame : DataFrame)
    (columnNames : option (list string)) : bool :=
  match columnNames with
  | Some l => (List.length l =? shape1 dataFrame)%nat
  | None => true
  end.

(** The statement of an upload: [_curString]. *)
Definition upload_statement (tableName : string) (names : list string)
    (colNamesUpper : bool) : string :=
  let '(_colNameStr, _colNumStr) := __buildInsertStrObj__ names colNamesUpper in
  __buildInsCursorString__ tableName _colNumStr _colNameStr.

(** The batch of an upload: [_dtList] after the normalising loop. *)
Definition upload_batch (dataFrame : DataFrame) : list (list value) :=
  cast_all (__pandasToList__ dataFrame).

(** The driver part of [pandasBulkInsert], from [self.__connect__()]
    to [self.__disconnect__()]. *)
Definition upload_io (_curString : string) (_dtList : list (list value)) : M unit :=
  __connect__ ;;
  cur <- get_attr __cursor ;;
  invoke (Prepare cur _curString) ;;
  cur <- get_attr __cursor ;;
  invoke (ExecuteMany cur None _dtList) ;;
  db <- get_attr __db ;;
  invoke (Commit db) ;;
  __disconnect__.

(** The calls of an upload that nothing interrupts. *)
Definition full_log (cs : string) (hdb hcur : handle) (stmt : string)
    (batch : list (list value)) : list call :=
  [Connect cs; Cursor hdb; Prepare hcur stmt; ExecuteMany hcur None batch;
   Commit hdb; CursorClose hcur; DbClose hdb].

(** The statement the specification's example expects, and the one the
    upload prepares. *)
Definition example_statement_quoted_table : string :=
  "INSERT INTO " ++ quoted "T" ++ " (" ++ quoted "id" ++ "," ++ quoted "name"
  ++ ") VALUES (:1,:2)".

Definition example_statement : string :=
  "INSERT INTO T (" ++ quoted "id" ++ "," ++ quoted "name" ++ ") VALUES (:1,:2)".

(** ** The other methods of [OracleCommand] *)

(** What a method does to the outside of the program: it issues a
    warning, makes one of the driver calls of the upload, executes one
    statement on a cursor, or asks pandas to read a query. *)
Inductive action : Type :=
| Warn (message : string)                       (* warnings.warn(message) *)
| Drv (c : call)
| Execute (cur : handle) (statement : string)   (* cursor.execute(command) *)
| ReadSql (command : string) (con : string).    (* pd.read_sql(command, cStr) *)

(** The libraries: cx_Oracle answers a call as before, pandas returns a
    data frame or raises; both may look at what was done so far. *)
Record outside : Type := mkOutside {
  cx_Oracle : list action -> action -> reply;
  read_sql : list action -> string -> string -> (DataFrame + string)%type
}.

(** The exceptions of these methods: those of the upload, and three
    more. *)
Inductive error : Type :=
| Exn (e : exn)
| ValueError (msg : string)
| NotImplementedError
| PandasError (msg : string).

Inductive ended (A : Type) : Type :=
| Returned (a : A)
| Raised (e : error).

Arguments Returned {A} a.
Arguments Raised {A} e.

(** The instance and everything done so far, oldest first. *)
Record process : Type := mkProcess {
  instance : OracleCommand;
  actions : list action
}.

Definition X (A : Type) : Type := outside -> process -> process * ended A.

Definition xret {A : Type} (a : A) : X A := fun _ p => (p, Returned a).

Definition xraise {A : Type} (e : error) : X A := fun _ p => (p, Raised e).

Definition xbind {A B : Type} (m : X A) (k : A -> X B) : X B :=
  fun o p =>
    match m o p with
    | (p', Returned a) => k a o p'
    | (p', Raised e) => (p', Raised e)
    end.

Declare Scope cmd_scope.
Delimit Scope cmd_scope with cmd.
Bind Scope cmd_scope with X.

Notation "x <- m ;; k" := (xbind m (fun x => k))
  (at level 61, m at next level, right associativity) : cmd_scope.
Notation "m ;; k" := (xbind m (fun _ => k))
  (at level 61, right associativity) : cmd_scope.

(** [warnings.warn(message)], under the default filter: the warning is
    issued and the method goes on. *)
Definition warn (message : string) : X unit :=
  fun _ p => (mkProcess (instance p) (actions p ++ [Warn message])%list, Returned tt).

(** A call into cx_Oracle made by these methods themselves. *)
Definition act (a : action) : X handle :=
  fun o p =>
    let p' := mkProcess (instance p) (actions p ++ [a])%list in
    match cx_Oracle o (actions p) a with
    | Raises msg => (p', Raised (Exn (DriverError msg)))
    | Returns h => (p', Returned h)
    end.

(** [pd.read_sql(command, con)]. *)
Definition pd_read_sql (command con : string) : X DataFrame :=
  fun o p =>
    let p' := mkProcess (instance p) (actions p ++ [ReadSql command con])%list in
    match read_sql o (actions p) command con with
    | inl df => (p', Returned df)
    | inr msg => (p', Raised (PandasError msg))
    end.

(** A method of the upload's layer called from here: its driver calls
    go to cx_Oracle, after what was done before, and are added to the
    actions; its change of the instance is kept. *)
Definition lift {A : Type} (m : M A) : X A :=
  fun o p =>
    let d : driver :=
      fun past c => cx_Oracle o (actions p ++ map Drv past)%list (Drv c) in
    match m d (mkWorld (instance p) []) with
    | (w, Ok a) =>
        (mkProcess (self w) (actions p ++ map Drv (log w))%list, Returned a)
    | (w, Raise e) =>
        (mkProcess (self w) (actions p ++ map Drv (log w))%list, Raised (Exn e))
    end.

(** Reading [self.__command]. *)
Definition get_command : X (option string) :=
  fun _ p => (p, Returned (__command (instance p))).

(** The text of the warning of [executeVector] and [executeNonQuery]. *)
Definition not_fully_tested : string :=
  "This method is not fully tested. Be sure to view the source code before implementation.".

(** The text of their [ValueError]. *)
Definition no_command : string := "No command supplied for execution.".

(** [executeScalar(self, command)]. *)
Definition executeScalar (command : string) : X value :=
  xraise NotImplementedError.

(** [executeVector(self, command)]. *)
Definition executeVector (command : option string) : X DataFrame :=
  (warn not_fully_tested ;;
   own <- get_command ;;
   command <- match command, own with
              | None, None => xraise (ValueError no_command)
              | None, Some c => xret c
              | Some c, _ => xret c
              end ;;
   cs <- lift get_cStr ;;
   _df <- pd_read_sql command cs ;;
   xret _df)%cmd.

(** [executeNonQuery(self, command)]. *)
Definition executeNonQuery (command : option string) : X unit :=
  (warn not_fully_tested ;;
   own <- get_command ;;
   command <- match command, own with
              | None, None => xraise (ValueError no_command)
              | None, Some c => xret c
              | Some c, _ => xret c
              end ;;
   lift __connect__ ;;
   cur <- lift (get_attr __cursor) ;;
   act (Execute cur command) ;;
   db <- lift (get_attr __db) ;;
   lift (invoke (Commit db)) ;;
   lift __disconnect__)%cmd.

(** [executeQueryAsync(self, command)]. *)
Definition executeQueryAsync (command : string) : X value :=
  xraise NotImplementedError.

(** [executeStoredProcedure(self, command)]. *)
Definition executeStoredProcedure (command : string) : X value :=
  xraise NotImplementedError.

(** [getConnector(self)]. *)
Definition getConnector : X handle :=
  (cs <- lift get_cStr ;;
   lift (invoke (Connect cs)))%cmd.

(** A call of a method on a fresh instance built with a connection
    string and a command, nothing done yet. *)
Definition start {A : Type} (m : X A) (o : outside) (connectionString : string)
    (command : option string) : process * ended A :=
  m o (mkProcess (__init__ connectionString command) []).

(** What a call did, and how it ended. *)
Definition done {A : Type} (r : process * ended A) : list action := actions (fst r).

Definition ending {A : Type} (r : process * ended A) : ended A := snd r.

(** The command a call works on: the argument, or else the one given
    to the constructor. *)
Definition resolved (command own : option string) : option string :=
  match command with
  | Some c => Some c
  | None => own
  end.

(** Libraries that accept everything; pandas returns the frame of the
    example. *)
Definition obliging : outside :=
  mkOutside
    (fun _ a => match a with
                | Drv (Connect _) => Returns 1
                | Drv (Cursor _) => Returns 2
                | _ => Returns 0
                end)
    (fun _ _ _ => inl example_frame).

(** The actions that are driver calls satisfying [p]. *)
Definition count_actions (p : action -> bool) (l : list action) : nat :=
  List.length (filter p l).

Definition is_drv (a : action) : bool :=
  match a with Warn _ => false | ReadSql _ _ => false | _ => true end.
Definition is_warn (a : action) : bool :=
  match a with Warn _ => true | _ => false end.
Definition is_execute (a : action) : bool :=
  match a with Execute _ _ => true | _ => false end.
Definition is_read_sql (a : action) : bool :=
  match a with ReadSql _ _ => true | _ => false end.
Definition drv_is (p : call -> bool) (a : action) : bool :=
  match a with Drv c => p c | _ => false end.

(** Two uploads of the same frame, one after the other, on the same
    instance. *)
Definition upload_twice (dataFrame : DataFrame) (tableName : string)
    (columnNames : option (list string)) (colNamesUpper : bool) : M unit :=
  pandasBulkInsert dataFrame tableName columnNames colNamesUpper ;;
  pandasBulkInsert dataFrame tableName columnNames colNamesUpper.

(** A driver that answers every call. *)
Definition answers_all (d : driver) : Prop :=
  forall past c, exists h, d past c = Returns h.

(** No cell of the list is a NaN. *)
Definition nan_free (l : list (list value)) : Prop :=
  Forall (Forall (fun v => is_nan v = false)) l.

(** ** Checks of the model on concrete inputs *)

Example build_AB :
  __buildInsertStrObj__ ["A"; "B"] false
  = ("(" ++ quoted "A" ++ "," ++ quoted "B" ++ ")", "(:1,:2)").
Proof. reflexivity. Qed.

Example build_ab_upper :
  __buildInsertStrObj__ ["a"; "b"] true = __buildInsertStrObj__ ["A"; "B"] false.
Proof. reflexivity. Qed.

Example placeholders_12 : placeholder_list 12 = "(:1,:2,:3,:4,:5,:6,:7,:8,:9,:10,:11,:12)".
Proof. reflexivity. Qed.

Example cast_all_ex :
  cast_all [[VInt 1; VStr "x"]; [VInt 2; NaN]]
  = [[VInt 1; VStr "x"]; [VInt 2; VNone]].
Proof. reflexivity. Qed.

Example one_eq_one_float :
  py_eq (VInt 1) (VFloat (S754_finite false 4503599627370496 (-52))) = true.
Proof. reflexivity. Qed.

Example upload_example :
  calls_of (run (pandasBulkInsert example_frame "T" (Some ["id"; "name"]) false)
                accepting "scott/tiger@xe")
  = [Connect "scott/tiger@xe"; Cursor 1;
     Prepare 2 ("INSERT INTO T (" ++ quoted "id" ++ "," ++ quoted "name"
                ++ ") VALUES (:1,:2)");
     ExecuteMany 2 None [[VInt 1; VStr "x"]; [VInt 2; VNone]];
     Commit 1; CursorClose 2; DbClose 1].
Proof. reflexivity. Qed.

(** * Properties *)

(** ** Strings *)

Section StringFacts.

Lemma append_nil_r (s : string) : s ++ "" = s.
Proof. induction s as [|c s IH]; simpl; [reflexivity | now rewrite IH]. Qed.

Lemma append_assoc (s t u : string) : (s ++ t) ++ u = s ++ (t ++ u).
Proof. induction s as [|c s IH]; simpl; [reflexivity | now rewrite IH]. Qed.

(** White space is stripped from the end only: a suffix that is not
    all white space shields what is before it. *)
Lemma rstrip_app_keep (s t : string) :
  rstrip t <> "" -> rstrip (s ++ t) = s ++ rstrip t.
Proof.
  intros Ht. induction s as [|c s IH]; simpl; [reflexivity|].
  rewrite IH. destruct (s ++ rstrip t) eqn:E; [|reflexivity].
  destruct s; simpl in E; [contradiction | discriminate].
Qed.

(** The [rstrip()] after each formatted name takes away the space of
    the format and nothing else, whatever the name is. *)
Lemma rstrip_fmt_quoted (s c : string) :
  rstrip (s ++ fmt_quoted c) = s ++ quoted c.
Proof.
  unfold fmt_quoted, quoted.
  replace (s ++ String dquote (c ++ String dquote " "))
    with ((s ++ String dquote c) ++ String dquote " ")
    by (rewrite append_assoc; reflexivity).
  rewrite rstrip_app_keep by (simpl; discriminate).
  simpl. rewrite append_assoc. reflexivity.
Qed.

End StringFacts.

Lemma concat_comma_cons (x : string) (xs : list string) :
  String.concat "," (x :: xs) = x ++ sep_tail xs.
Proof.
  revert x. induction xs as [|y ys IH]; intros x.
  - simpl. now rewrite append_nil_r.
  - change (String.concat "," (x :: y :: ys))
      with (x ++ "," ++ String.concat "," (y :: ys)).
    now rewrite IH.
Qed.

(** ** The column-list formatter *)

Lemma enumerate_from_cons {A : Type} (k : nat) (x : A) (l : list A) :
  enumerate_from k (x :: l) = (k, x) :: enumerate_from (S k) l.
Proof. reflexivity. Qed.

(** The loop after its first iteration: every further name adds a comma
    and the quoted name to the first string, a comma and the next
    placeholder to the second. *)
Lemma insertStr_loop_tail (l : list string) :
  forall (k : nat) (a b : string),
    fold_left insertStr_step (enumerate_from (S k) l) (a, b)
    = (a ++ sep_tail (map quoted l),
       b ++ sep_tail (map (fun i => ":" ++ str i) (seq (S (S k)) (List.length l)))).
Proof.
  induction l as [|c l IH]; intros k a b.
  - simpl. now rewrite !append_nil_r.
  - rewrite enumerate_from_cons. cbn [fold_left].
    unfold insertStr_step at 2. cbn [Nat.eqb].
    rewrite rstrip_fmt_quoted, IH.
    cbn [map List.length seq sep_tail].
    rewrite Nat.add_1_r.
    f_equal; now rewrite !append_assoc.
Qed.

(** The formatter in closed form, for a list with at least one name. *)
Lemma buildInsertStrObj_closed (names : list string) (ToUpper : bool) :
  names <> [] ->
  __buildInsertStrObj__ names ToUpper
  = (quoted_list (if ToUpper then map upper names else names),
     placeholder_list (List.length names)).
Proof.
  intros Hne. unfold __buildInsertStrObj__.
  set (cols := if ToUpper then map upper names else names).
  assert (Hlen : List.length cols = List.length names)
    by (unfold cols; destruct ToUpper; [apply length_map | reflexivity]).
  assert (Hcols : cols <> [])
    by (intros E; apply Hne, length_zero_iff_nil; rewrite <- Hlen, E; reflexivity).
  rewrite <- Hlen. clearbody cols. clear Hne Hlen.
  destruct cols as [|c l]; [contradiction|].
  unfold enumerate. rewrite enumerate_from_cons. cbn [fold_left].
  unfold insertStr_step at 2. cbn [Nat.eqb].
  rewrite rstrip_fmt_quoted, insertStr_loop_tail.
  unfold quoted_list, placeholder_list, parenthesized.
  cbn [map List.length seq]. rewrite !concat_comma_cons.
  f_equal; rewrite ?append_assoc; reflexivity.
Qed.

Example upper_id : upper "id_Col1" = "ID_COL1".
Proof. reflexivity. Qed.

(** C4.  For every non-empty sequence of column names, the formatter
    returns the names, each between double quotes, in the order given,
    separated by commas and between parentheses, and the placeholders
    [:1] to [:n], [n] the number of names, separated by commas and
    between parentheses. *)
Theorem formatter_nonempty (names : list string) :
  names <> [] ->
  __buildInsertStrObj__ names false
  = (quoted_list names, placeholder_list (List.length names)).
Proof. intros Hne. exact (buildInsertStrObj_closed false Hne). Qed.

(** The names A and B give the two fragments of the specification's
    example. *)
Lemma formatter_nonempty_AB :
  __buildInsertStrObj__ ["A"; "B"] false
  = ("(" ++ quoted "A" ++ "," ++ quoted "B" ++ ")", "(:1,:2)").
Proof. apply (@formatter_nonempty ["A"; "B"]). discriminate. Defined.

(** C8.  With the upper-casing flag the quoted fragment is the one of
    the upper-cased names, without it the one of the names as they are
    supplied; the placeholder fragment does not depend on the flag. *)
Theorem formatter_upper_flag (names : list string) :
  fst (__buildInsertStrObj__ names true)
  = fst (__buildInsertStrObj__ (map upper names) false)
  /\ snd (__buildInsertStrObj__ names true)
     = snd (__buildInsertStrObj__ names false)
  /\ (names <> [] ->
      fst (__buildInsertStrObj__ names true) = quoted_list (map upper names)
      /\ fst (__buildInsertStrObj__ names false) = quoted_list names).
Proof.
  split; [reflexivity|].
  destruct names as [|c l].
  - split; [reflexivity | intros H; now contradiction H].
  - assert (Hne : c :: l <> []) by discriminate.
    rewrite (buildInsertStrObj_closed true Hne).
    rewrite (buildInsertStrObj_closed false Hne).
    repeat split.
Qed.

(** The names id and name, with and without the flag. *)
Lemma formatter_upper_flag_id_name :
  fst (__buildInsertStrObj__ ["id"; "name"] true)
  = "(" ++ quoted "ID" ++ "," ++ quoted "NAME" ++ ")"
  /\ fst (__buildInsertStrObj__ ["id"; "name"] false)
     = "(" ++ quoted "id" ++ "," ++ quoted "name" ++ ")".
Proof.
  apply (proj2 (proj2 (formatter_upper_flag ["id"; "name"]))). discriminate.
Defined.

(** C9.  On the empty sequence of names the formatter does not fail:
    both fragments are a lone closing parenthesis. *)
Theorem formatter_empty (ToUpper : bool) :
  __buildInsertStrObj__ [] ToUpper = (")", ")").
Proof. destruct ToUpper; reflexivity. Qed.

(** ** The null normalizer *)

Section Equality.

Lemma SFeqb_self (f : spec_float) :
  SFeqb f f = match f with S754_nan => false | _ => true end.
Proof.
  destruct f as [s|s| |s m e]; unfold SFeqb; simpl.
  - reflexivity.
  - destruct s; reflexivity.
  - reflexivity.
  - destruct s; rewrite Z.compare_refl, Pos.compare_refl; reflexivity.
Qed.

(** A scalar equals itself unless it is the float NaN. *)
Lemma py_eq_self (v : value) : py_eq v v = negb (is_nan v).
Proof.
  destruct v as [|b|z|f|s]; simpl.
  - reflexivity.
  - now destruct b.
  - apply Z.eqb_refl.
  - rewrite SFeqb_self. now destruct f.
  - apply String.eqb_refl.
Qed.

End Equality.

Lemma castToNone_normalized (v : value) : __castToNone__ v = normalized v.
Proof.
  unfold __castToNone__, normalized, py_ne. rewrite py_eq_self.
  now destruct (is_nan v).
Qed.

(** C3.  The normalizer returns [None] for a value that differs from
    itself, which is the case of the float NaN and of nothing else, and
    returns every value that equals itself unchanged; so it does with
    0, the empty string and [False]. *)
Theorem castToNone_spec (v : value) :
  (py_ne v v = true <-> v = NaN)
  /\ (py_ne v v = true -> __castToNone__ v = VNone)
  /\ (py_eq v v = true -> __castToNone__ v = v)
  /\ __castToNone__ NaN = VNone
  /\ __castToNone__ (VInt 0) = VInt 0
  /\ __castToNone__ (VStr "") = VStr ""
  /\ __castToNone__ (VBool false) = VBool false.
Proof.
  split; [|split; [|split]].
  - unfold py_ne. rewrite py_eq_self, Bool.negb_involutive.
    split.
    + destruct v as [| | |f|]; try discriminate.
      destruct f; try discriminate. reflexivity.
    + intros ->. reflexivity.
  - intros H. unfold __castToNone__. now rewrite H.
  - intros H. unfold __castToNone__, py_ne. now rewrite H.
  - repeat split.
Qed.

(** NaN becomes [None]; the float zero stays. *)
Lemma castToNone_spec_witness :
  __castToNone__ NaN = VNone
  /\ __castToNone__ (VFloat (S754_zero true)) = VFloat (S754_zero true).
Proof.
  split.
  - apply (proj1 (proj2 (castToNone_spec NaN))). reflexivity.
  - apply (proj1 (proj2 (proj2 (castToNone_spec (VFloat (S754_zero true)))))).
    reflexivity.
Defined.

(** ** The row extractor and the normalising loop *)

Local Open Scope list_scope.

Lemma pandasToList_from (l : list (list value)) :
  forall (k : nat) (content : list (list value)),
    fold_left (fun content ir => let row := snd ir in (content ++ [row])%list)
              (enumerate_from k l) content
    = (content ++ l)%list.
Proof.
  induction l as [|r l IH]; intros k content.
  - simpl. now rewrite app_nil_r.
  - rewrite enumerate_from_cons. cbn [fold_left snd].
    rewrite IH, <- app_assoc. reflexivity.
Qed.

(** The extractor returns the rows, all of them, in their order. *)
Lemma pandasToList_rows (dataFrame : DataFrame) :
  __pandasToList__ dataFrame = rows dataFrame.
Proof. unfold __pandasToList__, iterrows, enumerate. apply pandasToList_from. Qed.

Section ListSet.

Context {A : Type}.

Lemma nth_error_middle (pre post : list A) (x : A) :
  nth_error (pre ++ x :: post) (List.length pre) = Some x.
Proof. induction pre as [|a pre IH]; simpl; [reflexivity | exact IH]. Qed.

Lemma nth_error_end (pre : list A) :
  nth_error pre (List.length pre) = None.
Proof. induction pre as [|a pre IH]; simpl; [reflexivity | exact IH]. Qed.

Lemma list_set_middle (pre post : list A) (x y : A) :
  list_set (List.length pre) y (pre ++ x :: post) = (pre ++ y :: post)%list.
Proof. induction pre as [|a pre IH]; simpl; [reflexivity | now rewrite IH]. Qed.

End ListSet.

(** The assignment to a cell of row [i], on a list split at row [i]
    whose row is split at column [j]. *)
Lemma set_cell_middle (above below : list (list value))
    (left right : list value) (c v : value) :
  set_cell (List.length above) (List.length left) v
           (above ++ (left ++ c :: right) :: below)
  = (above ++ (left ++ v :: right) :: below)%list.
Proof.
  unfold set_cell. rewrite nth_error_middle.
  now rewrite list_set_middle, list_set_middle.
Qed.

(** The inner loop, started at column [j] of row [i] with as many
    iterations allowed as cells are left, normalises the cells from
    [j] on and leaves everything else as it is. *)
Lemma cast_row_loop_spec (above below : list (list value)) (right : list value) :
  forall left : list value,
    cast_row_loop (List.length right) (List.length left) (List.length above)
                  (above ++ (left ++ right) :: below)
    = (above ++ (left ++ map __castToNone__ right) :: below)%list.
Proof.
  induction right as [|c right IH]; intros left.
  - reflexivity.
  - cbn [List.length cast_row_loop].
    rewrite nth_error_middle, nth_error_middle, set_cell_middle.
    replace (left ++ __castToNone__ c :: right)%list
      with ((left ++ [__castToNone__ c]) ++ right)%list
      by (rewrite <- app_assoc; reflexivity).
    replace (S (List.length left)) with (List.length (left ++ [__castToNone__ c])%list)
      by (rewrite length_app, Nat.add_1_r; reflexivity).
    rewrite IH, <- app_assoc. reflexivity.
Qed.

(** The outer loop, started at row [i], normalises the rows from [i]
    on. *)
Lemma cast_rows_loop_spec (below : list (list value)) :
  forall above : list (list value),
    cast_rows_loop (List.length below) (List.length above) (above ++ below)
    = (above ++ map (map __castToNone__) below)%list.
Proof.
  induction below as [|r below IH]; intros above.
  - reflexivity.
  - cbn [List.length cast_rows_loop].
    rewrite nth_error_middle.
    change r with ([] ++ r)%list at 2.
    change 0 with (List.length (@nil value)).
    rewrite cast_row_loop_spec. cbn [app].
    replace (above ++ map __castToNone__ r :: below)%list
      with ((above ++ [map __castToNone__ r]) ++ below)%list
      by (rewrite <- app_assoc; reflexivity).
    replace (S (List.length above))
      with (List.length (above ++ [map __castToNone__ r])%list)
      by (rewrite length_app, Nat.add_1_r; reflexivity).
    rewrite IH, <- app_assoc. reflexivity.
Qed.

(** The two loops normalise every cell, in place. *)
Lemma cast_all_map (l : list (list value)) :
  cast_all l = map (map __castToNone__) l.
Proof. unfold cast_all. exact (cast_rows_loop_spec l []). Qed.

(** The batch of an upload: the rows of the data frame, every cell
    normalised. *)
Lemma batch_normalized (dataFrame : DataFrame) :
  cast_all (__pandasToList__ dataFrame) = map (map normalized) (rows dataFrame).
Proof.
  rewrite pandasToList_rows, cast_all_map.
  apply map_ext. intros r. apply map_ext. exact castToNone_normalized.
Qed.

Local Open Scope string_scope.

(** ** The upload *)

(** [pandasBulkInsert] is the check of the names, then the driver part
    on the statement and the batch. *)
Lemma pandasBulkInsert_eq (dataFrame : DataFrame) (tableName : string)
    (columnNames : option (list string)) (colNamesUpper : bool)
    (d : driver) (w : world) :
  pandasBulkInsert dataFrame tableName columnNames colNamesUpper d w
  = if names_accepted dataFrame columnNames
    then upload_io (upload_statement tableName
                      (effective_names dataFrame columnNames) colNamesUpper)
                   (upload_batch dataFrame) d w
    else (w, Raise AssertionError).
Proof.
  unfold pandasBulkInsert, upload_statement, upload_batch, upload_io.
  destruct columnNames as [l|]; cbn [names_accepted effective_names].
  - unfold bind at 1. unfold bind at 1. unfold assert.
    destruct (List.length l =? shape1 dataFrame)%nat; cbn [ret raise].
    + destruct (__buildInsertStrObj__ l colNamesUpper). reflexivity.
    + reflexivity.
  - unfold bind at 1. cbn [ret].
    destruct (__buildInsertStrObj__ (columns dataFrame) colNamesUpper).
    reflexivity.
Qed.

(** Destructs the next answer of the driver that the goal waits for. *)
Ltac driver_step d :=
  match goal with
  | |- context [match d ?past ?c with _ => _ end] =>
      let E := fresh "E" in
      destruct (d past c) eqn:E; cbn
  end.

(** Every run of the driver part is a beginning of [full_log]: it goes
    through all seven calls and returns, or stops at the first call
    that the driver refuses and raises what the driver raised. *)
Lemma upload_io_cases (stmt : string) (batch : list (list value))
    (d : driver) (cs : string) :
  let r := run (upload_io stmt batch) d cs in
  exists (hdb hcur : handle) (n : nat),
    let full := full_log cs hdb hcur stmt batch in
    1 <= n <= 7
    /\ calls_of r = firstn n full
    /\ ((outcome r = Ok tt /\ n = 7)
        \/ exists msg,
             outcome r = Raise (DriverError msg)
             /\ d (firstn (n - 1) full) (nth (n - 1) full (Connect cs))
                = Raises msg).
Proof.
  unfold run, upload_io, __connect__, __disconnect__, calls_of, outcome,
    bind, get_cStr, get_attr, set_db, set_cursor, invoke, ret, __init__.
  cbn.
  driver_step d; [exists 0, 0, 1; cbn; repeat split; try lia; eauto|].
  driver_step d; [exists h, 0, 2; cbn; repeat split; try lia; eauto|].
  driver_step d; [exists h, h0, 3; cbn; repeat split; try lia; eauto|].
  driver_step d; [exists h, h0, 4; cbn; repeat split; try lia; eauto|].
  driver_step d; [exists h, h0, 5; cbn; repeat split; try lia; eauto|].
  driver_step d; [exists h, h0, 6; cbn; repeat split; try lia; eauto|].
  driver_step d; exists h, h0, 7; cbn; repeat split; try lia; eauto.
Qed.

(** A run of [pandasBulkInsert]: the names are refused and nothing
    else happens, or the run is one of the driver part. *)
Lemma upload_cases (dataFrame : DataFrame) (tableName : string)
    (columnNames : option (list string)) (colNamesUpper : bool)
    (d : driver) (cs : string) :
  let r := run (pandasBulkInsert dataFrame tableName columnNames colNamesUpper) d cs in
  let stmt := upload_statement tableName
                (effective_names dataFrame columnNames) colNamesUpper in
  (names_accepted dataFrame columnNames = false
   /\ calls_of r = [] /\ outcome r = Raise AssertionError)
  \/ (names_accepted dataFrame columnNames = true
      /\ exists (hdb hcur : handle) (n : nat),
           let full := full_log cs hdb hcur stmt (upload_batch dataFrame) in
           1 <= n <= 7
           /\ calls_of r = firstn n full
           /\ ((outcome r = Ok tt /\ n = 7)
               \/ exists msg,
                    outcome r = Raise (DriverError msg)
                    /\ d (firstn (n - 1) full) (nth (n - 1) full (Connect cs))
                       = Raises msg)).
Proof.
  cbv zeta. unfold run. rewrite pandasBulkInsert_eq.
  destruct (names_accepted dataFrame columnNames).
  - right. split; [reflexivity|]. apply upload_io_cases.
  - left. repeat split.
Qed.


Lemma In_firstn {A : Type} (x : A) (n : nat) (l : list A) :
  In x (firstn n l) -> In x l.
Proof.
  revert l. induction n as [|n IH]; intros [|a l]; simpl; try tauto.
  intros [H|H]; [left; exact H | right; exact (IH l H)].
Qed.

(** Every call of a run is one of [full_log]. *)
Lemma upload_calls_in_full (dataFrame : DataFrame) (tableName : string)
    (columnNames : option (list string)) (colNamesUpper : bool)
    (d : driver) (cs : string) (c : call) :
  In c (calls_of (run (pandasBulkInsert dataFrame tableName columnNames
                         colNamesUpper) d cs)) ->
  exists hdb hcur,
    In c (full_log cs hdb hcur
            (upload_statement tableName (effective_names dataFrame columnNames)
               colNamesUpper)
            (upload_batch dataFrame)).
Proof.
  intros Hin.
  destruct (upload_cases dataFrame tableName columnNames colNamesUpper d cs)
    as [(_ & Hlog & _) | (_ & hdb & hcur & n & Hn & Hlog & _)];
    rewrite Hlog in Hin.
  - contradiction.
  - exists hdb, hcur. revert Hin. apply In_firstn.
Qed.

(** The statement of an upload with at least one name: the table name
    as it is given, the quoted names and the placeholders. *)
Lemma upload_statement_closed (tableName : string) (names : list string)
    (colNamesUpper : bool) :
  names <> [] ->
  upload_statement tableName names colNamesUpper
  = "INSERT INTO " ++ tableName ++ " "
    ++ quoted_list (if colNamesUpper then map upper names else names)
    ++ " VALUES " ++ placeholder_list (List.length names).
Proof.
  intros Hne. unfold upload_statement.
  rewrite (buildInsertStrObj_closed colNamesUpper Hne). reflexivity.
Qed.

(** The run of the driver part against a driver that answers the
    first [k] calls of [full_log]. *)
Lemma upload_io_prepared (stmt : string) (batch : list (list value))
    (d : driver) (cs : string) (hdb hcur : handle) :
  d [] (Connect cs) = Returns hdb ->
  d [Connect cs] (Cursor hdb) = Returns hcur ->
  firstn 3 (calls_of (run (upload_io stmt batch) d cs))
  = [Connect cs; Cursor hdb; Prepare hcur stmt].
Proof.
  intros H1 H2.
  unfold run, upload_io, __connect__, __disconnect__, calls_of,
    bind, get_cStr, get_attr, set_db, set_cursor, invoke, ret, __init__.
  cbn. rewrite H1. cbn. rewrite H2. cbn.
  driver_step d; [reflexivity|].
  driver_step d; [reflexivity|].
  driver_step d; [reflexivity|].
  driver_step d; [reflexivity|].
  driver_step d; reflexivity.
Qed.

Lemma upload_io_batch_sent (stmt : string) (batch : list (list value))
    (d : driver) (cs : string) (hdb hcur h : handle) :
  d [] (Connect cs) = Returns hdb ->
  d [Connect cs] (Cursor hdb) = Returns hcur ->
  d [Connect cs; Cursor hdb] (Prepare hcur stmt) = Returns h ->
  firstn 4 (calls_of (run (upload_io stmt batch) d cs))
  = [Connect cs; Cursor hdb; Prepare hcur stmt; ExecuteMany hcur None batch].
Proof.
  intros H1 H2 H3.
  unfold run, upload_io, __connect__, __disconnect__, calls_of,
    bind, get_cStr, get_attr, set_db, set_cursor, invoke, ret, __init__.
  cbn. rewrite H1. cbn. rewrite H2. cbn. rewrite H3. cbn.
  driver_step d; [reflexivity|].
  driver_step d; [reflexivity|].
  driver_step d; [reflexivity|].
  driver_step d; reflexivity.
Qed.


(** C1, as the specification states it, fails: for the table T and the
    columns id and name the statement prepared on the cursor has the
    table name bare, not between double quotes. *)
Lemma statement_table_name_bare :
  let r := run (pandasBulkInsert example_frame "T" (Some ["id"; "name"]) false)
               accepting "scott/tiger@xe" in
  nth_error (calls_of r) 2 = Some (Prepare 2 example_statement)
  /\ example_statement <> example_statement_quoted_table.
Proof. split; [reflexivity | discriminate]. Qed.

(** C1, amended.  For a table name [T] and a non-empty list of column
    names, the statement prepared on the cursor is INSERT INTO, [T] as
    it is supplied, the quoted names between parentheses, VALUES and
    the placeholders [:1] to [:n] between parentheses; the names are
    upper-cased first when that is asked for.  Every upload whose
    names pass the check and whose connection and cursor are opened
    prepares it, as its third driver call. *)
Theorem upload_statement_text (dataFrame : DataFrame) (tableName : string)
    (names : list string) (colNamesUpper : bool) (d : driver) (cs : string) :
  names <> [] ->
  let r := run (pandasBulkInsert dataFrame tableName (Some names) colNamesUpper)
               d cs in
  let stmt := "INSERT INTO " ++ tableName ++ " "
              ++ quoted_list (if colNamesUpper then map upper names else names)
              ++ " VALUES " ++ placeholder_list (List.length names) in
  (forall cur s, In (Prepare cur s) (calls_of r) -> s = stmt)
  /\ (forall hdb hcur,
        List.length names = shape1 dataFrame ->
        d [] (Connect cs) = Returns hdb ->
        d [Connect cs] (Cursor hdb) = Returns hcur ->
        firstn 3 (calls_of r) = [Connect cs; Cursor hdb; Prepare hcur stmt]).
Proof.
  intros Hne r stmt. subst r stmt.
  rewrite <- (upload_statement_closed tableName colNamesUpper Hne).
  split.
  - intros cur s Hin.
    apply upload_calls_in_full in Hin. destruct Hin as (hdb & hcur & Hin).
    cbn in Hin.
    repeat (destruct Hin as [Hin|Hin]; try discriminate Hin; try contradiction).
    now inversion Hin.
  - intros hdb hcur Hlen H1 H2. unfold run. rewrite pandasBulkInsert_eq.
    cbn [names_accepted effective_names].
    apply Nat.eqb_eq in Hlen. rewrite Hlen.
    now apply upload_io_prepared.
Qed.

(** The first three calls of the example upload. *)
Lemma upload_statement_text_example :
  firstn 3 (calls_of (run (pandasBulkInsert example_frame "T"
                             (Some ["id"; "name"]) false)
                          accepting "scott/tiger@xe"))
  = [Connect "scott/tiger@xe"; Cursor 1; Prepare 2 example_statement].
Proof.
  assert (Hne : ["id"; "name"] <> []) by discriminate.
  apply (proj2 (@upload_statement_text example_frame "T" ["id"; "name"] false
                  accepting "scott/tiger@xe" Hne) 1 2); reflexivity.
Defined.

(** C2.  The batch handed to [executemany] is the list of the data
    frame's rows, in their order and all of them, every cell normalised:
    [None] for a NaN, the cell itself otherwise.  Every upload whose
    names pass the check and whose connection is opened and statement
    prepared hands it over, as its fourth driver call. *)
Theorem upload_batch_rows (dataFrame : DataFrame) (tableName : string)
    (columnNames : option (list string)) (colNamesUpper : bool)
    (d : driver) (cs : string) :
  let r := run (pandasBulkInsert dataFrame tableName columnNames colNamesUpper)
               d cs in
  let batch := map (map normalized) (rows dataFrame) in
  (forall cur st b, In (ExecuteMany cur st b) (calls_of r) -> b = batch)
  /\ (forall hdb hcur h,
        names_accepted dataFrame columnNames = true ->
        d [] (Connect cs) = Returns hdb ->
        d [Connect cs] (Cursor hdb) = Returns hcur ->
        d [Connect cs; Cursor hdb]
          (Prepare hcur (upload_statement tableName
                           (effective_names dataFrame columnNames) colNamesUpper))
        = Returns h ->
        nth_error (calls_of r) 3 = Some (ExecuteMany hcur None batch)).
Proof.
  intros r batch. subst r batch. rewrite <- batch_normalized.
  fold (upload_batch dataFrame). split.
  - intros cur st b Hin.
    apply upload_calls_in_full in Hin. destruct Hin as (hdb & hcur & Hin).
    cbn in Hin.
    repeat (destruct Hin as [Hin|Hin]; try discriminate Hin; try contradiction).
    now inversion Hin.
  - intros hdb hcur h Hok H1 H2 H3. unfold run. rewrite pandasBulkInsert_eq, Hok.
    pose proof (@upload_io_batch_sent _ (upload_batch dataFrame) d cs hdb hcur h
                  H1 H2 H3) as H4.
    unfold run in H4.
    destruct (calls_of _) as [|c1 [|c2 [|c3 [|c4 l]]]]; try discriminate H4.
    now inversion H4.
Qed.

(** The fourth call of the example upload carries the normalised rows. *)
Lemma upload_batch_rows_example :
  nth_error (calls_of (run (pandasBulkInsert example_frame "T"
                              (Some ["id"; "name"]) false)
                           accepting "scott/tiger@xe")) 3
  = Some (ExecuteMany 2 None [[VInt 1; VStr "x"]; [VInt 2; VNone]]).
Proof.
  apply (proj2 (upload_batch_rows example_frame "T" (Some ["id"; "name"]) false
                  accepting "scott/tiger@xe") 1 2 0); reflexivity.
Defined.

(** C5, as the specification states it, fails: one name supplied for
    the two columns of the example makes the upload raise Python's own
    [AssertionError], out of the [assert] statement; the class has no
    validation error of its own, and the error is none of the driver's
    either. *)
Lemma wrong_count_raises_assertion_error :
  let r := run (pandasBulkInsert example_frame "T" (Some ["id"]) false)
               accepting "scott/tiger@xe" in
  List.length ["id"] <> shape1 example_frame
  /\ outcome r = Raise AssertionError
  /\ (forall msg, outcome r <> Raise (DriverError msg)).
Proof. repeat split; discriminate. Qed.

(** C5, amended.  When column names are supplied and their number
    differs from the data frame's number of columns, the upload fails
    on its [assert], with [AssertionError], before any driver call:
    nothing is connected. *)
Theorem upload_rejects_wrong_count (dataFrame : DataFrame) (tableName : string)
    (names : list string) (colNamesUpper : bool) (d : driver) (cs : string) :
  List.length names <> shape1 dataFrame ->
  let r := run (pandasBulkInsert dataFrame tableName (Some names) colNamesUpper)
               d cs in
  outcome r = Raise AssertionError
  /\ calls_of r = []
  /\ count_calls is_connect (calls_of r) = 0.
Proof.
  intros Hlen r. subst r. unfold run. rewrite pandasBulkInsert_eq.
  cbn [names_accepted]. apply Nat.eqb_neq in Hlen. rewrite Hlen.
  repeat split.
Qed.

(** One name for a frame of two columns. *)
Lemma upload_rejects_wrong_count_example :
  let r := run (pandasBulkInsert example_frame "T" (Some ["id"]) false)
               accepting "scott/tiger@xe" in
  outcome r = Raise AssertionError
  /\ calls_of r = []
  /\ count_calls is_connect (calls_of r) = 0.
Proof.
  apply (@upload_rejects_wrong_count example_frame "T" ["id"] false
           accepting "scott/tiger@xe").
  vm_compute. discriminate.
Defined.




(** C7.  An upload that returns made exactly these driver calls, in
    this order and each one once: connect, cursor, prepare of the
    statement, one [executemany] of the whole batch, commit, close of
    the cursor, close of the connection. *)
Theorem successful_upload_calls (dataFrame : DataFrame) (tableName : string)
    (columnNames : option (list string)) (colNamesUpper : bool)
    (d : driver) (cs : string) :
  let r := run (pandasBulkInsert dataFrame tableName columnNames colNamesUpper)
               d cs in
  outcome r = Ok tt ->
  (exists hdb hcur,
     calls_of r
     = [Connect cs; Cursor hdb;
        Prepare hcur (upload_statement tableName
                        (effective_names dataFrame columnNames) colNamesUpper);
        ExecuteMany hcur None (upload_batch dataFrame);
        Commit hdb; CursorClose hcur; DbClose hdb])
  /\ count_calls is_connect (calls_of r) = 1
  /\ count_calls is_prepare (calls_of r) = 1
  /\ count_calls is_executemany (calls_of r) = 1
  /\ count_calls is_commit (calls_of r) = 1
  /\ count_calls is_cursor_close (calls_of r) = 1
  /\ count_calls is_db_close (calls_of r) = 1.
Proof.
  cbv zeta. intros Hok.
  destruct (upload_cases dataFrame tableName columnNames colNamesUpper d cs)
    as [(_ & _ & Hout) | (_ & hdb & hcur & n & Hn & Hlog & [[_ ->]|Hend])].
  - rewrite Hout in Hok. discriminate.
  - rewrite Hlog. split; [exists hdb, hcur|]; repeat split.
  - destruct Hend as (msg & Hout & _). rewrite Hout in Hok. discriminate.
Qed.

(** The example upload against a driver that accepts every call. *)
Lemma successful_upload_calls_example :
  let r := run (pandasBulkInsert example_frame "T" (Some ["id"; "name"]) false)
               accepting "scott/tiger@xe" in
  count_calls is_connect (calls_of r) = 1
  /\ count_calls is_prepare (calls_of r) = 1
  /\ count_calls is_executemany (calls_of r) = 1
  /\ count_calls is_commit (calls_of r) = 1
  /\ count_calls is_cursor_close (calls_of r) = 1
  /\ count_calls is_db_close (calls_of r) = 1.
Proof.
  apply (@successful_upload_calls example_frame "T" (Some ["id"; "name"]) false
           accepting "scott/tiger@xe").
  reflexivity.
Defined.

(** C10.  Without column names the upload formats the data frame's own
    labels, in their order, and checks no length: it never fails on the
    assertion, and it runs the driver part on the statement built from
    the labels. *)
Theorem upload_default_names (dataFrame : DataFrame) (tableName : string)
    (colNamesUpper : bool) (d : driver) (cs : string) :
  let r := run (pandasBulkInsert dataFrame tableName None colNamesUpper) d cs in
  let stmt := upload_statement tableName (columns dataFrame) colNamesUpper in
  r = run (upload_io stmt (upload_batch dataFrame)) d cs
  /\ outcome r <> Raise AssertionError
  /\ (forall cur s, In (Prepare cur s) (calls_of r) -> s = stmt)
  /\ (columns dataFrame <> [] ->
      stmt = "INSERT INTO " ++ tableName ++ " "
             ++ quoted_list (if colNamesUpper
                             then map upper (columns dataFrame)
                             else columns dataFrame)
             ++ " VALUES " ++ placeholder_list (shape1 dataFrame)).
Proof.
  cbv zeta. split; [|split; [|split]].
  - unfold run. now rewrite pandasBulkInsert_eq.
  - destruct (upload_cases dataFrame tableName None colNamesUpper d cs)
      as [(Hno & _) | (_ & hdb & hcur & n & _ & _ & [[-> _]|(msg & -> & _)])];
      discriminate.
  - intros cur s Hin.
    apply upload_calls_in_full in Hin. destruct Hin as (hdb & hcur & Hin).
    cbn in Hin.
    repeat (destruct Hin as [Hin|Hin]; try discriminate Hin; try contradiction).
    now inversion Hin.
  - intros Hne. now apply upload_statement_closed.
Qed.

(** The statement built from the labels of the example frame. *)
Lemma upload_default_names_example :
  upload_statement "T" (columns example_frame) false = example_statement.
Proof.
  apply (proj2 (proj2 (proj2 (upload_default_names example_frame "T" false
                                accepting "scott/tiger@xe")))).
  discriminate.
Defined.

Example nonquery_example :
  done (start (executeNonQuery (Some "DELETE FROM T")) obliging "scott/tiger@xe" None)
  = [Warn not_fully_tested; Drv (Connect "scott/tiger@xe"); Drv (Cursor 1);
     Execute 2 "DELETE FROM T"; Drv (Commit 1); Drv (CursorClose 2);
     Drv (DbClose 1)].
Proof. reflexivity. Qed.

(** * Further properties of the code *)

(** ** The formatter, beyond the claims *)

Lemma upper_append (s t : string) : upper (s ++ t) = upper s ++ upper t.
Proof. induction s as [|c s IH]; simpl; [reflexivity | now rewrite IH]. Qed.

(** The formatter on any list: the closed forms, or the two lone
    parentheses. *)
Lemma buildInsertStrObj_any (names : list string) (ToUpper : bool) :
  __buildInsertStrObj__ names ToUpper
  = match names with
    | [] => (")", ")")
    | _ => (quoted_list (if ToUpper then map upper names else names),
            placeholder_list (List.length names))
    end.
Proof.
  destruct names as [|c l]; [now destruct ToUpper|].
  apply buildInsertStrObj_closed. discriminate.
Qed.

(** X1.  The placeholder fragment depends on the number of names only:
    two lists of the same length get the same placeholders, whatever
    the names and the flags, the empty list included. *)
Theorem placeholders_by_count (a b : list string) (u u' : bool) :
  List.length a = List.length b ->
  snd (__buildInsertStrObj__ a u) = snd (__buildInsertStrObj__ b u').
Proof.
  intros Hlen. rewrite !buildInsertStrObj_any.
  destruct a as [|x a], b as [|y b]; try discriminate Hlen; [reflexivity|].
  cbn [snd]. now rewrite Hlen.
Qed.

(** Three names against three others. *)
Lemma placeholders_by_count_example :
  snd (__buildInsertStrObj__ ["id"; "name"; "age"] false)
  = snd (__buildInsertStrObj__ ["x"; "y"; "z"] true).
Proof.
  apply (@placeholders_by_count ["id"; "name"; "age"] ["x"; "y"; "z"] false true).
  reflexivity.
Defined.

(** X2.  The names are not escaped: one name that contains a double
    quote, a comma and a double quote yields the very name fragment of
    the two names around them. *)
Theorem names_not_escaped (a b : string) (rest : list string) (ToUpper : bool) :
  fst (__buildInsertStrObj__
         ((a ++ String dquote ("," ++ String dquote b)) :: rest) ToUpper)
  = fst (__buildInsertStrObj__ (a :: b :: rest) ToUpper).
Proof.
  rewrite !buildInsertStrObj_any. cbn [fst].
  assert (Hq : forall x y,
             quoted (x ++ String dquote ("," ++ String dquote y))
             = quoted x ++ "," ++ quoted y).
  { intros x y. unfold quoted. cbn [append]. f_equal.
    rewrite !append_assoc. reflexivity. }
  assert (Hu : upper (a ++ String dquote ("," ++ String dquote b))
               = upper a ++ String dquote ("," ++ String dquote (upper b))).
  { rewrite upper_append. reflexivity. }
  unfold quoted_list, parenthesized.
  destruct ToUpper; cbn [map]; rewrite ?Hu, !concat_comma_cons; cbn [sep_tail];
    rewrite Hq, !append_assoc; reflexivity.
Qed.

(** ** The normalising loop, beyond the claims *)

Lemma castToNone_not_nan (v : value) : is_nan (__castToNone__ v) = false.
Proof.
  rewrite castToNone_normalized. unfold normalized.
  destruct (is_nan v) eqn:E; [reflexivity | exact E].
Qed.

Lemma castToNone_keeps (v : value) : is_nan v = false -> __castToNone__ v = v.
Proof. intros H. rewrite castToNone_normalized. unfold normalized. now rewrite H. Qed.

(** X3.  After the two loops no cell is a NaN, whatever the list of
    rows is, rows of different lengths included. *)
Theorem cast_all_nan_free (l : list (list value)) : nan_free (cast_all l).
Proof.
  rewrite cast_all_map. unfold nan_free.
  apply Forall_forall. intros r Hr.
  apply in_map_iff in Hr. destruct Hr as (r0 & <- & _).
  apply Forall_forall. intros v Hv.
  apply in_map_iff in Hv. destruct Hv as (v0 & <- & _).
  apply castToNone_not_nan.
Qed.

(** X4.  The two loops keep the shape: as many rows, and in each row
    as many cells, as before. *)
Theorem cast_all_shape (l : list (list value)) :
  map (@List.length value) (cast_all l) = map (@List.length value) l.
Proof.
  rewrite cast_all_map, map_map. apply map_ext. intros r. apply length_map.
Qed.

(** X5.  Rows without a NaN come out of the two loops as they went
    in. *)
Theorem cast_all_fixes_nan_free (l : list (list value)) :
  nan_free l -> cast_all l = l.
Proof.
  intros H. rewrite cast_all_map.
  induction H as [|r l Hr _ IH]; [reflexivity|].
  cbn [map]. rewrite IH. f_equal.
  induction Hr as [|v r Hv _ IHr]; [reflexivity|].
  cbn [map]. now rewrite IHr, (castToNone_keeps _ Hv).
Qed.

(** Rows with [None], an infinity and a negative zero. *)
Lemma cast_all_fixes_nan_free_example :
  cast_all [[VNone; VFloat (S754_infinity true)]; [VFloat (S754_zero true)]]
  = [[VNone; VFloat (S754_infinity true)]; [VFloat (S754_zero true)]].
Proof.
  apply (@cast_all_fixes_nan_free
           [[VNone; VFloat (S754_infinity true)]; [VFloat (S754_zero true)]]).
  repeat constructor.
Defined.

(** X6.  Running the two loops a second time changes nothing. *)
Theorem cast_all_idempotent (l : list (list value)) :
  cast_all (cast_all l) = cast_all l.
Proof.
  rewrite !cast_all_map, map_map. apply map_ext. intros r.
  rewrite map_map. apply map_ext. intros v.
  apply castToNone_keeps, castToNone_not_nan.
Qed.

(** ** The upload, beyond the claims *)

(** Takes the next answer from a driver that answers every call. *)
Ltac driver_answers d H :=
  match goal with
  | |- context [match d ?past ?c with _ => _ end] =>
      let h := fresh "h" in
      let E := fresh "E" in
      destruct (H past c) as [h E]; rewrite E; cbn
  end.

(** The driver part on any instance and after any calls, against a
    driver that answers every call: the seven calls are added, the
    instance holds the two handles. *)
Lemma upload_io_answered (stmt : string) (batch : list (list value))
    (d : driver) (o : OracleCommand) (l : list call) :
  answers_all d ->
  exists hdb hcur,
    upload_io stmt batch d (mkWorld o l)
    = (mkWorld (mkOracleCommand (__cStr o) (__command o) (Some hdb) (Some hcur))
               (l ++ full_log (__cStr o) hdb hcur stmt batch)%list,
       Ok tt).
Proof.
  intros H.
  unfold upload_io, __connect__, __disconnect__,
    bind, get_cStr, get_attr, set_db, set_cursor, invoke, ret.
  cbn.
  driver_answers d H. driver_answers d H. driver_answers d H.
  driver_answers d H. driver_answers d H. driver_answers d H.
  driver_answers d H.
  exists h, h0. unfold full_log. rewrite <- !app_assoc. reflexivity.
Qed.

(** The driver part on a fresh instance, when it returns: the
    instance and the calls. *)
Lemma upload_io_returned (stmt : string) (batch : list (list value))
    (d : driver) (cs : string) :
  let r := run (upload_io stmt batch) d cs in
  outcome r = Ok tt ->
  exists hdb hcur,
    fst r = mkWorld (mkOracleCommand cs None (Some hdb) (Some hcur))
                    (full_log cs hdb hcur stmt batch).
Proof.
  unfold run, upload_io, __connect__, __disconnect__, outcome,
    bind, get_cStr, get_attr, set_db, set_cursor, invoke, ret, __init__.
  cbn.
  driver_step d; [discriminate|].
  driver_step d; [discriminate|].
  driver_step d; [discriminate|].
  driver_step d; [discriminate|].
  driver_step d; [discriminate|].
  driver_step d; [discriminate|].
  driver_step d; [discriminate|].
  intros _. exists h, h0. reflexivity.
Qed.



(** X8.  A frame without columns is not refused: with no names to
    format, the statement is the table name between INSERT INTO and a
    closing parenthesis, VALUES and a closing parenthesis, and it is
    prepared on the cursor as it is. *)
Theorem upload_without_columns (dataFrame : DataFrame) (tableName : string)
    (columnNames : option (list string)) (colNamesUpper : bool)
    (d : driver) (cs : string) (hdb hcur : handle) :
  effective_names dataFrame columnNames = [] ->
  names_accepted dataFrame columnNames = true ->
  d [] (Connect cs) = Returns hdb ->
  d [Connect cs] (Cursor hdb) = Returns hcur ->
  firstn 3 (calls_of (run (pandasBulkInsert dataFrame tableName columnNames
                             colNamesUpper) d cs))
  = [Connect cs; Cursor hdb;
     Prepare hcur ("INSERT INTO " ++ tableName ++ " ) VALUES )")].
Proof.
  intros Hnames Hok H1 H2. unfold run.
  rewrite pandasBulkInsert_eq, Hok, Hnames.
  replace ("INSERT INTO " ++ tableName ++ " ) VALUES )")
    with (upload_statement tableName [] colNamesUpper)
    by (destruct colNamesUpper; reflexivity).
  now apply upload_io_prepared.
Qed.

(** A frame with neither columns nor rows, no names supplied. *)
Lemma upload_without_columns_example :
  firstn 3 (calls_of (run (pandasBulkInsert (mkDataFrame [] []) "T" None false)
                          accepting "scott/tiger@xe"))
  = [Connect "scott/tiger@xe"; Cursor 1; Prepare 2 "INSERT INTO T ) VALUES )"].
Proof.
  apply (@upload_without_columns (mkDataFrame [] []) "T" None false
           accepting "scott/tiger@xe" 1 2); reflexivity.
Defined.

(** X9.  A frame without rows is not refused either: the connection is
    opened, the statement prepared and [executemany] called with the
    empty batch. *)
Theorem upload_without_rows (dataFrame : DataFrame) (tableName : string)
    (columnNames : option (list string)) (colNamesUpper : bool)
    (d : driver) (cs : string) (hdb hcur h : handle) :
  rows dataFrame = [] ->
  names_accepted dataFrame columnNames = true ->
  d [] (Connect cs) = Returns hdb ->
  d [Connect cs] (Cursor hdb) = Returns hcur ->
  d [Connect cs; Cursor hdb]
    (Prepare hcur (upload_statement tableName
                     (effective_names dataFrame columnNames) colNamesUpper))
  = Returns h ->
  firstn 4 (calls_of (run (pandasBulkInsert dataFrame tableName columnNames
                             colNamesUpper) d cs))
  = [Connect cs; Cursor hdb;
     Prepare hcur (upload_statement tableName
                     (effective_names dataFrame columnNames) colNamesUpper);
     ExecuteMany hcur None []].
Proof.
  intros Hrows Hok H1 H2 H3. unfold run. rewrite pandasBulkInsert_eq, Hok.
  assert (Hb : upload_batch dataFrame = [])
    by (unfold upload_batch; rewrite pandasToList_rows, Hrows; reflexivity).
  rewrite Hb. exact (@upload_io_batch_sent _ [] d cs hdb hcur h H1 H2 H3).
Qed.

(** The columns of the example, no rows. *)
Lemma upload_without_rows_example :
  firstn 4 (calls_of (run (pandasBulkInsert (mkDataFrame ["id"; "name"] []) "T"
                             None false)
                          accepting "scott/tiger@xe"))
  = [Connect "scott/tiger@xe"; Cursor 1; Prepare 2 example_statement;
     ExecuteMany 2 None []].
Proof.
  apply (@upload_without_rows (mkDataFrame ["id"; "name"] []) "T" None false
           accepting "scott/tiger@xe" 1 2 0); reflexivity.
Defined.

(** X10.  An upload that returns leaves the instance with the handles
    of the connection and of the cursor it has just closed; the
    connection string and the command are as they were. *)
Theorem upload_keeps_closed_handles (dataFrame : DataFrame) (tableName : string)
    (columnNames : option (list string)) (colNamesUpper : bool)
    (d : driver) (cs : string) :
  let r := run (pandasBulkInsert dataFrame tableName columnNames colNamesUpper)
               d cs in
  outcome r = Ok tt ->
  exists hdb hcur,
    self (fst r) = mkOracleCommand cs None (Some hdb) (Some hcur)
    /\ In (DbClose hdb) (calls_of r)
    /\ In (CursorClose hcur) (calls_of r).
Proof.
  cbv zeta. unfold run. rewrite pandasBulkInsert_eq.
  destruct (names_accepted dataFrame columnNames); [|discriminate].
  intros Hok. apply upload_io_returned in Hok.
  destruct Hok as (hdb & hcur & Hw). exists hdb, hcur.
  unfold calls_of, run in *. rewrite Hw. cbn. tauto.
Qed.

(** The instance after the upload of the example. *)
Lemma upload_keeps_closed_handles_example :
  let r := run (pandasBulkInsert example_frame "T" None false)
               accepting "scott/tiger@xe" in
  exists hdb hcur,
    self (fst r) = mkOracleCommand "scott/tiger@xe" None (Some hdb) (Some hcur)
    /\ In (DbClose hdb) (calls_of r)
    /\ In (CursorClose hcur) (calls_of r).
Proof.
  apply (@upload_keeps_closed_handles example_frame "T" None false
           accepting "scott/tiger@xe").
  reflexivity.
Defined.

(** X11.  Nothing is deduplicated: the same upload run twice on an
    instance, against a driver that answers every call, opens two
    connections, sends the same batch twice and commits twice. *)
Theorem upload_twice_inserts_twice (dataFrame : DataFrame) (tableName : string)
    (columnNames : option (list string)) (colNamesUpper : bool)
    (d : driver) (cs : string) :
  answers_all d ->
  names_accepted dataFrame columnNames = true ->
  let r := run (upload_twice dataFrame tableName columnNames colNamesUpper) d cs in
  let stmt := upload_statement tableName
                (effective_names dataFrame columnNames) colNamesUpper in
  let batch := upload_batch dataFrame in
  outcome r = Ok tt
  /\ (exists h1 c1 h2 c2,
        calls_of r = (full_log cs h1 c1 stmt batch
                      ++ full_log cs h2 c2 stmt batch)%list)
  /\ count_calls is_connect (calls_of r) = 2
  /\ count_calls is_executemany (calls_of r) = 2
  /\ count_calls is_commit (calls_of r) = 2.
Proof.
  intros H Hok. cbv zeta.
  unfold run, upload_twice, bind.
  rewrite pandasBulkInsert_eq, Hok.
  destruct (upload_io_answered
              (upload_statement tableName (effective_names dataFrame columnNames)
                 colNamesUpper)
              (upload_batch dataFrame) (__init__ cs None) [] H)
    as (h1 & c1 & E1).
  rewrite E1. rewrite pandasBulkInsert_eq, Hok.
  match goal with
  | |- context [upload_io ?s ?b d (mkWorld ?o ?l)] =>
      destruct (upload_io_answered s b o l H) as (h2 & c2 & E2)
  end.
  rewrite E2. unfold outcome, calls_of. cbn.
  split; [reflexivity|]. split; [|repeat split].
  exists h1, c1, h2, c2. reflexivity.
Qed.

(** The upload of the example, twice. *)
Lemma upload_twice_inserts_twice_example :
  let r := run (upload_twice example_frame "T" None false)
               accepting "scott/tiger@xe" in
  count_calls is_executemany (calls_of r) = 2.
Proof.
  assert (H : answers_all accepting)
    by (intros past c; destruct c; eexists; reflexivity).
  apply (@upload_twice_inserts_twice example_frame "T" None false
           accepting "scott/tiger@xe" H).
  reflexivity.
Defined.

(** ** Connecting and disconnecting *)

(** X12.  [__connect__] followed by [__disconnect__], when both return,
    made four calls: the connection, its cursor, and the close of that
    cursor and of that connection, in this order. *)
Theorem connect_disconnect_pairs (d : driver) (cs : string) :
  let r := run (__connect__ ;; __disconnect__) d cs in
  outcome r = Ok tt ->
  exists hdb hcur,
    calls_of r = [Connect cs; Cursor hdb; CursorClose hcur; DbClose hdb]
    /\ d [] (Connect cs) = Returns hdb
    /\ d [Connect cs] (Cursor hdb) = Returns hcur.
Proof.
  unfold run, __connect__, __disconnect__, outcome, calls_of,
    bind, get_cStr, get_attr, set_db, set_cursor, invoke, ret, __init__.
  cbn.
  driver_step d; [discriminate|].
  driver_step d; [discriminate|].
  driver_step d; [discriminate|].
  driver_step d; [discriminate|].
  intros _. exists h, h0. repeat split; assumption.
Qed.

(** Against the driver that accepts every call. *)
Lemma connect_disconnect_pairs_example :
  exists hdb hcur,
    calls_of (run (__connect__ ;; __disconnect__) accepting "scott/tiger@xe")
    = [Connect "scott/tiger@xe"; Cursor hdb; CursorClose hcur; DbClose hdb]
    /\ accepting [] (Connect "scott/tiger@xe") = Returns hdb
    /\ accepting [Connect "scott/tiger@xe"] (Cursor hdb) = Returns hcur.
Proof.
  apply (@connect_disconnect_pairs accepting "scott/tiger@xe"). reflexivity.
Defined.

(** X13.  [__disconnect__] on an instance that has no cursor yet, as
    one that never connected, raises the error of a missing attribute
    and calls nothing. *)
Theorem disconnect_before_connect (d : driver) (w : world) :
  __cursor (self w) = None ->
  __disconnect__ d w = (w, Raise AttributeError).
Proof.
  intros H. unfold __disconnect__, bind, get_attr. now rewrite H.
Qed.

(** On a fresh instance. *)
Lemma disconnect_before_connect_example :
  run __disconnect__ accepting "scott/tiger@xe"
  = (mkWorld (__init__ "scott/tiger@xe" None) [], Raise AttributeError).
Proof.
  apply (@disconnect_before_connect accepting
           (mkWorld (__init__ "scott/tiger@xe" None) [])).
  reflexivity.
Defined.

(** X14.  When the close of the cursor raises, [__disconnect__] stops
    there: the connection is not closed and the caller gets the
    driver's error. *)
Theorem disconnect_cursor_close_raises (d : driver) (w : world)
    (cur : handle) (msg : string) :
  __cursor (self w) = Some cur ->
  d (log w) (CursorClose cur) = Raises msg ->
  __disconnect__ d w
  = (mkWorld (self w) (log w ++ [CursorClose cur])%list, Raise (DriverError msg)).
Proof.
  intros Hc Hd. unfold __disconnect__, bind, get_attr, invoke.
  now rewrite Hc, Hd.
Qed.

(** An instance with connection 1 and cursor 2, and a driver that
    refuses every close of a cursor. *)
Lemma disconnect_cursor_close_raises_example :
  __disconnect__
    (fun _ c => match c with CursorClose _ => Raises "closed" | _ => Returns 0 end)
    (mkWorld (mkOracleCommand "scott/tiger@xe" None (Some 1) (Some 2)) [])
  = (mkWorld (mkOracleCommand "scott/tiger@xe" None (Some 1) (Some 2))
             [CursorClose 2],
     Raise (DriverError "closed")).
Proof.
  apply (@disconnect_cursor_close_raises
           (fun _ c => match c with
                       | CursorClose _ => Raises "closed"
                       | _ => Returns 0
                       end)
           (mkWorld (mkOracleCommand "scott/tiger@xe" None (Some 1) (Some 2)) [])
           2 "closed"); reflexivity.
Defined.

(** X15.  When the connection is opened and the creation of the cursor
    raises, [__connect__] leaves the instance with the connection and
    without a cursor; a [__disconnect__] after that raises the error of
    a missing attribute and does not close the connection. *)
Theorem connect_without_cursor (d : driver) (cs : string) (hdb : handle)
    (msg : string) :
  d [] (Connect cs) = Returns hdb ->
  d [Connect cs] (Cursor hdb) = Raises msg ->
  let r := run __connect__ d cs in
  outcome r = Raise (DriverError msg)
  /\ fst r = mkWorld (mkOracleCommand cs None (Some hdb) None)
                     [Connect cs; Cursor hdb]
  /\ __disconnect__ d (fst r) = (fst r, Raise AttributeError).
Proof.
  intros H1 H2.
  unfold run, __connect__, outcome,
    bind, get_cStr, get_attr, set_db, set_cursor, invoke, ret, __init__.
  cbn. rewrite H1. cbn. rewrite H2. cbn. repeat split.
Qed.

(** A driver that opens connections and refuses cursors. *)
Lemma connect_without_cursor_example :
  let d : driver :=
    fun _ c => match c with Cursor _ => Raises "no cursor" | _ => Returns 1 end in
  let r := run __connect__ d "scott/tiger@xe" in
  outcome r = Raise (DriverError "no cursor")
  /\ fst r = mkWorld (mkOracleCommand "scott/tiger@xe" None (Some 1) None)
                     [Connect "scott/tiger@xe"; Cursor 1]
  /\ __disconnect__ d (fst r) = (fst r, Raise AttributeError).
Proof.
  apply (@connect_without_cursor
           (fun _ c => match c with
                       | Cursor _ => Raises "no cursor"
                       | _ => Returns 1
                       end)
           "scott/tiger@xe" 1 "no cursor"); reflexivity.
Defined.

(** X16.  Connecting twice and disconnecting once closes the second
    connection and its cursor; the handles of the first are
    overwritten and nothing closes them. *)
Theorem reconnect_closes_last (d : driver) (cs : string) :
  answers_all d ->
  let r := run (__connect__ ;; __connect__ ;; __disconnect__) d cs in
  outcome r = Ok tt
  /\ exists h1 c1 h2 c2,
       calls_of r = [Connect cs; Cursor h1; Connect cs; Cursor h2;
                     CursorClose c2; DbClose h2]
       /\ d [] (Connect cs) = Returns h1
       /\ d [Connect cs] (Cursor h1) = Returns c1
       /\ d [Connect cs; Cursor h1] (Connect cs) = Returns h2
       /\ d [Connect cs; Cursor h1; Connect cs] (Cursor h2) = Returns c2
       /\ self (fst r) = mkOracleCommand cs None (Some h2) (Some c2).
Proof.
  intros H.
  unfold run, __connect__, __disconnect__, outcome, calls_of,
    bind, get_cStr, get_attr, set_db, set_cursor, invoke, ret, __init__.
  cbn.
  driver_answers d H. driver_answers d H. driver_answers d H.
  driver_answers d H. driver_answers d H. driver_answers d H.
  split; [reflexivity|]. exists h, h0, h1, h2. repeat split; assumption.
Qed.

(** Against the driver that accepts every call. *)
Lemma reconnect_closes_last_example :
  outcome (run (__connect__ ;; __connect__ ;; __disconnect__)
               accepting "scott/tiger@xe") = Ok tt.
Proof.
  assert (H : answers_all accepting)
    by (intros past c; destruct c; eexists; reflexivity).
  apply (@reconnect_closes_last accepting "scott/tiger@xe" H).
Defined.

(** ** [executeNonQuery], [executeVector] and [getConnector] *)

(** Destructs the next answer of cx_Oracle that the goal waits for. *)
Ltac outside_step o :=
  match goal with
  | |- context [match cx_Oracle o ?past ?a with _ => _ end] =>
      let E := fresh "E" in
      destruct (cx_Oracle o past a) eqn:E; cbn
  end.

Ltac unfold_commands :=
  unfold start, done, ending, executeNonQuery, executeVector, getConnector,
    xbind, xret, xraise, warn, act, pd_read_sql, lift, get_command,
    __connect__, __disconnect__,
    bind, get_cStr, get_attr, set_db, set_cursor, invoke, ret, __init__.

(** X17.  With no command, neither as argument nor from the
    constructor, [executeNonQuery] and [executeVector] issue their
    warning and raise [ValueError]; they call neither the driver nor
    pandas. *)
Theorem no_command_supplied (command own : option string) (o : outside)
    (cs : string) :
  resolved command own = None ->
  start (executeNonQuery command) o cs own
  = (mkProcess (__init__ cs own) [Warn not_fully_tested],
     Raised (ValueError no_command))
  /\ start (executeVector command) o cs own
     = (mkProcess (__init__ cs own) [Warn not_fully_tested],
        Raised (ValueError no_command)).
Proof.
  intros H. destruct command as [c|]; [discriminate|].
  cbn in H. subst own. split; reflexivity.
Qed.

(** No argument on an instance built without a command. *)
Lemma no_command_supplied_example :
  start (executeNonQuery None) obliging "scott/tiger@xe" None
  = (mkProcess (__init__ "scott/tiger@xe" None) [Warn not_fully_tested],
     Raised (ValueError no_command))
  /\ start (executeVector None) obliging "scott/tiger@xe" None
     = (mkProcess (__init__ "scott/tiger@xe" None) [Warn not_fully_tested],
        Raised (ValueError no_command)).
Proof.
  apply (@no_command_supplied None None obliging "scott/tiger@xe"). reflexivity.
Defined.

(** X18.  An [executeNonQuery] that returns did exactly this, in this
    order: the warning, connect, cursor, one [execute] of the command,
    commit, close of the cursor, close of the connection.  The command
    is the argument when there is one, the constructor's otherwise. *)
Theorem nonquery_returned (command own : option string) (o : outside)
    (cs c : string) :
  resolved command own = Some c ->
  let r := start (executeNonQuery command) o cs own in
  ending r = Returned tt ->
  exists hdb hcur,
    done r = [Warn not_fully_tested; Drv (Connect cs); Drv (Cursor hdb);
              Execute hcur c; Drv (Commit hdb); Drv (CursorClose hcur);
              Drv (DbClose hdb)].
Proof.
  intros Hres.
  assert (Hc : match command, own with
               | None, None => None
               | None, Some x => Some x
               | Some x, _ => Some x
               end = Some c)
    by (destruct command, own; cbn in Hres; congruence).
  unfold_commands. cbn.
  destruct command as [x|], own as [y|]; try discriminate Hc;
    inversion Hc; subst; cbn;
    (outside_step o; [discriminate|]);
    (outside_step o; [discriminate|]);
    (outside_step o; [discriminate|]);
    (outside_step o; [discriminate|]);
    (outside_step o; [discriminate|]);
    (outside_step o; [discriminate|]);
    intros _; exists h, h0; reflexivity.
Qed.

(** The argument wins over the command of the constructor. *)
Lemma nonquery_returned_example :
  exists hdb hcur,
    done (start (executeNonQuery (Some "DELETE FROM T")) obliging
                "scott/tiger@xe" (Some "DROP TABLE T"))
    = [Warn not_fully_tested; Drv (Connect "scott/tiger@xe"); Drv (Cursor hdb);
       Execute hcur "DELETE FROM T"; Drv (Commit hdb); Drv (CursorClose hcur);
       Drv (DbClose hdb)].
Proof.
  apply (@nonquery_returned (Some "DELETE FROM T") (Some "DROP TABLE T")
           obliging "scott/tiger@xe" "DELETE FROM T"); reflexivity.
Defined.

(** X19.  When [execute] raises, [executeNonQuery] stops there: it
    neither commits nor closes the cursor and the connection, and the
    caller gets the driver's error. *)
Theorem nonquery_execute_raises (command own : option string) (o : outside)
    (cs c msg : string) (hdb hcur : handle) :
  resolved command own = Some c ->
  cx_Oracle o [Warn not_fully_tested] (Drv (Connect cs)) = Returns hdb ->
  cx_Oracle o [Warn not_fully_tested; Drv (Connect cs)] (Drv (Cursor hdb))
  = Returns hcur ->
  cx_Oracle o [Warn not_fully_tested; Drv (Connect cs); Drv (Cursor hdb)]
            (Execute hcur c)
  = Raises msg ->
  let r := start (executeNonQuery command) o cs own in
  done r = [Warn not_fully_tested; Drv (Connect cs); Drv (Cursor hdb);
            Execute hcur c]
  /\ ending r = Raised (Exn (DriverError msg)).
Proof.
  intros Hres H1 H2 H3.
  assert (Hc : match command, own with
               | None, None => None
               | None, Some x => Some x
               | Some x, _ => Some x
               end = Some c)
    by (destruct command, own; cbn in Hres; congruence).
  unfold_commands. cbn.
  destruct command as [x|], own as [y|]; try discriminate Hc;
    inversion Hc; subst; cbn;
    rewrite H1; cbn; rewrite H2; cbn; rewrite H3; cbn; split; reflexivity.
Qed.

(** Libraries that accept everything but [execute]. *)
Lemma nonquery_execute_raises_example :
  let o := mkOutside
             (fun past a => match a with
                            | Execute _ _ => Raises "ORA-00942"
                            | _ => cx_Oracle obliging past a
                            end)
             (read_sql obliging) in
  let r := start (executeNonQuery None) o "scott/tiger@xe" (Some "DELETE FROM T") in
  done r = [Warn not_fully_tested; Drv (Connect "scott/tiger@xe"); Drv (Cursor 1);
            Execute 2 "DELETE FROM T"]
  /\ ending r = Raised (Exn (DriverError "ORA-00942")).
Proof.
  apply (@nonquery_execute_raises None (Some "DELETE FROM T")
           (mkOutside
              (fun past a => match a with
                             | Execute _ _ => Raises "ORA-00942"
                             | _ => cx_Oracle obliging past a
                             end)
              (read_sql obliging))
           "scott/tiger@xe" "DELETE FROM T" "ORA-00942" 1 2); reflexivity.
Defined.

(** X20.  Every call of [executeNonQuery] issues its warning, once and
    before anything else, whatever the command and however the call
    ends. *)
Theorem nonquery_warns_once (command own : option string) (o : outside)
    (cs : string) :
  let r := start (executeNonQuery command) o cs own in
  exists rest,
    done r = Warn not_fully_tested :: rest
    /\ count_actions is_warn rest = 0.
Proof.
  unfold_commands. cbn.
  destruct command as [x|], own as [y|]; cbn;
    try (eexists; split; reflexivity);
    (outside_step o; [eexists; split; reflexivity|]);
    (outside_step o; [eexists; split; reflexivity|]);
    (outside_step o; [eexists; split; reflexivity|]);
    (outside_step o; [eexists; split; reflexivity|]);
    (outside_step o; [eexists; split; reflexivity|]);
    outside_step o; eexists; split; reflexivity.
Qed.

(** X21.  [executeVector] never calls the driver and leaves the
    instance as it is: with a command it issues its warning and asks
    pandas once, with the command and the connection string, and it
    returns the frame pandas returns or raises what pandas raises. *)
Theorem vector_reads_through_pandas (command own : option string) (o : outside)
    (cs : string) :
  let r := start (executeVector command) o cs own in
  count_actions is_drv (done r) = 0
  /\ instance (fst r) = __init__ cs own
  /\ forall c,
       resolved command own = Some c ->
       done r = [Warn not_fully_tested; ReadSql c cs]
       /\ ending r = match read_sql o [Warn not_fully_tested] c cs with
                     | inl df => Returned df
                     | inr msg => Raised (PandasError msg)
                     end.
Proof.
  unfold_commands. cbn.
  destruct command as [x|], own as [y|]; cbn;
    try (destruct (read_sql o _ _ _) eqn:E; cbn);
    (split; [reflexivity|]); (split; [reflexivity|]);
    intros c Hc; cbn in Hc; inversion Hc; subst;
    try rewrite E; split; reflexivity.
Qed.

(** X22.  [getConnector] opens a connection with the instance's
    connection string and returns it without recording it: the instance
    is unchanged, so a [__disconnect__] after it finds no cursor and
    closes nothing. *)
Theorem connector_not_recorded (own : option string) (o : outside)
    (cs : string) (h : handle) :
  cx_Oracle o [] (Drv (Connect cs)) = Returns h ->
  let r := start getConnector o cs own in
  ending r = Returned h
  /\ fst r = mkProcess (__init__ cs own) [Drv (Connect cs)]
  /\ lift __disconnect__ o (fst r) = (fst r, Raised (Exn AttributeError)).
Proof.
  intros H. unfold_commands. cbn. rewrite H. cbn.
  repeat split.
Qed.

(** Against the libraries that accept everything. *)
Lemma connector_not_recorded_example :
  let r := start getConnector obliging "scott/tiger@xe" None in
  ending r = Returned 1
  /\ fst r = mkProcess (__init__ "scott/tiger@xe" None)
                       [Drv (Connect "scott/tiger@xe")]
  /\ lift __disconnect__ obliging (fst r) = (fst r, Raised (Exn AttributeError)).
Proof.
  apply (@connector_not_recorded None obliging "scott/tiger@xe" 1). reflexivity.
Defined.

(** A query given as argument: pandas is asked once and its frame
    returned. *)
Lemma vector_reads_through_pandas_example :
  let r := start (executeVector (Some "SELECT * FROM T")) obliging
                 "scott/tiger@xe" None in
  done r = [Warn not_fully_tested; ReadSql "SELECT * FROM T" "scott/tiger@xe"]
  /\ ending r = Returned example_frame.
Proof.
  apply (proj2 (proj2 (vector_reads_through_pandas (Some "SELECT * FROM T") None
                         obliging "scott/tiger@xe")) "SELECT * FROM T").
  reflexivity.
Defined.
